(** * Verification of the KP/Vimshottari astrology core

    A shallow embedding of the numerical core of the backend
    (app/core/vimshottari_tree.py, vimshottari_utils.py, kp_calc.py,
    houses_placidus.py, panchangam_calc.py and the lookup code of main.py),
    followed by the theorems that settle the properties of its specification.

    Python's [float] is IEEE-754 binary64; it is modelled by Rocq's primitive
    floats, whose operations are the same correctly rounded ones.  What
    CPython adds on top ([%], [//], [int], [math.floor], [min], [max],
    [timedelta(seconds=...)]) is written out below from its definition, so that
    every function of the model can be run on concrete inputs. *)

From Stdlib Require Import ZArith List String Ascii Bool Lia Floats.
From Stdlib Require Import DecimalString.
Import ListNotations.

Set Warnings "-inexact-float,-register-all".

(** ** The Python run time the code relies on *)

Module Py.

Open Scope Z_scope.

(** Exceptions raised by the modelled code, and the result of a call. *)
Inductive exn : Type :=
| ValueError (msg : string)
| KeyError (key : string)
| IndexError (msg : string)
| OverflowError (msg : string).

Inductive result (A : Type) : Type :=
| Ok (a : A)
| Raise (e : exn).
Arguments Ok {A} a.
Arguments Raise {A} e.

Definition bind {A B : Type} (m : result A) (k : A -> result B) : result B :=
  match m with
  | Ok a => k a
  | Raise e => Raise e
  end.

Definition is_ok {A : Type} (m : result A) : bool :=
  match m with Ok _ => true | Raise _ => false end.

Definition is_value_error {A : Type} (m : result A) : bool :=
  match m with Raise (ValueError _) => true | _ => false end.

(** *** Floats *)

Definition is_nan (x : float) : bool := negb (PrimFloat.eqb x x).

Definition is_inf (x : float) : bool :=
  PrimFloat.eqb x infinity || PrimFloat.eqb x neg_infinity.

Definition is_finite (x : float) : bool := negb (is_nan x) && negb (is_inf x).

(** The float nearest to [M * 2^E] (ties to even); exact whenever
    [M * 2^E] is a binary64 number. *)
Definition float_of_scaled (M E : Z) : float :=
  SF2Prim (binary_normalize prec emax M E false).

(** [float(n)] for a Python int. *)
Definition float_of_int (n : Z) : float := float_of_scaled n 0.

Definition signed_zero (neg : bool) : float :=
  if neg then (-0)%float else 0%float.

(** C's [fmod]: the exact remainder of [x / y], with the sign of [x]. *)
Definition fmod (x y : float) : float :=
  match Prim2SF x, Prim2SF y with
  | S754_nan, _ | _, S754_nan => nan
  | S754_infinity _, _ => nan
  | _, S754_zero _ => nan
  | S754_zero _, _ => x
  | _, S754_infinity _ => x
  | S754_finite sx mx ex, S754_finite sy my ey =>
      if PrimFloat.ltb (abs x) (abs y) then x
      else
        let e := Z.min ex ey in
        let X := Z.shiftl (Zpos mx) (ex - e) in
        let Y := Z.shiftl (Zpos my) (ey - e) in
        let R := X mod Y in
        if R =? 0 then signed_zero sx
        else float_of_scaled (cond_Zopp sx R) e
  end.

(** C's [copysign (0.0, w)]. *)
Definition zero_with_sign_of (w : float) : float :=
  match Prim2SF w with
  | S754_zero s | S754_infinity s | S754_finite s _ _ => signed_zero s
  | S754_nan => 0%float
  end.

(** C's [floor] and [round] (half away from zero), float to float. *)
Definition c_floor (x : float) : float :=
  match Prim2SF x with
  | S754_finite s m e =>
      if 0 <=? e then x
      else
        let q := Z.shiftr (cond_Zopp s (Zpos m)) (- e) in
        if q =? 0 then signed_zero s else float_of_scaled q 0
  | _ => x
  end.

Definition c_round (x : float) : float :=
  match Prim2SF x with
  | S754_finite s m e =>
      if 0 <=? e then x
      else
        let d := Z.shiftl 1 (- e) in
        let q := Zpos m / d in
        let r := Zpos m mod d in
        let q' := if d <=? 2 * r then q + 1 else q in
        if q' =? 0 then signed_zero s else float_of_scaled (cond_Zopp s q') 0
  | _ => x
  end.

(** Truncation toward zero as an integer: [int(x)], and [(long) x] in C. *)
Definition trunc_Z (x : float) : Z :=
  match Prim2SF x with
  | S754_finite s m e =>
      cond_Zopp s (if 0 <=? e then Z.shiftl (Zpos m) e else Z.shiftr (Zpos m) (- e))
  | _ => 0
  end.

Definition not_a_number_msg : string := "cannot convert float NaN to integer".
Definition infinite_msg : string := "cannot convert float infinity to integer".

(** [int(x)] on a float. *)
Definition py_int (x : float) : result Z :=
  if is_nan x then Raise (ValueError not_a_number_msg)
  else if is_inf x then Raise (OverflowError infinite_msg)
  else Ok (trunc_Z x).

(** [math.floor(x)], which returns a Python int. *)
Definition math_floor (x : float) : result Z :=
  if is_nan x then Raise (ValueError not_a_number_msg)
  else if is_inf x then Raise (OverflowError infinite_msg)
  else Ok (trunc_Z (c_floor x)).

(** [x % y] on floats (CPython's [float_rem]).  Every divisor in the modelled
    code is a non-zero literal, so the [ZeroDivisionError] branch is not
    reachable and the operation is a total function here. *)
Definition py_mod (x y : float) : float :=
  let m := fmod x y in
  if PrimFloat.eqb m 0 then zero_with_sign_of y
  else if negb (Bool.eqb (PrimFloat.ltb y 0) (PrimFloat.ltb m 0)) then (m + y)%float
  else m.

(** [x // y] on floats (CPython's [float_floor_div]), same remark. *)
Definition py_floordiv (x y : float) : float :=
  let m := fmod x y in
  let div := ((x - m) / y)%float in
  let div :=
    if PrimFloat.eqb m 0 then div
    else if negb (Bool.eqb (PrimFloat.ltb y 0) (PrimFloat.ltb m 0)) then (div - 1)%float
    else div in
  if PrimFloat.eqb div 0 then zero_with_sign_of (x / y)%float
  else
    let fl := c_floor div in
    if PrimFloat.ltb 0.5 (div - fl) then (fl + 1)%float else fl.

Definition py_max (a b : float) : float := if PrimFloat.ltb a b then b else a.

(** [n / d] on Python ints, [d > 0]: the correctly rounded quotient. *)
Definition int_truediv (n d : Z) : float :=
  if n =? 0 then 0%float
  else
    let k := 128 + Z.log2 d in
    let (q, r) := Z.div_eucl (Z.shiftl (Z.abs n) k) d in
    SF2Prim (binary_round_aux prec emax (n <? 0) q (- k) (new_location d r)).

(** *** Strings *)

Definition lower_ascii (c : ascii) : ascii :=
  let n := nat_of_ascii c in
  if (Nat.leb 65 n && Nat.leb n 90)%bool then ascii_of_nat (n + 32) else c.

Fixpoint lower (s : string) : string :=
  match s with
  | EmptyString => EmptyString
  | String c s' => String (lower_ascii c) (lower s')
  end.

(** [xs.index(x)] on a list of strings. *)
Fixpoint list_index (x : string) (xs : list string) : option nat :=
  match xs with
  | [] => None
  | y :: ys => if String.eqb x y then Some O
               else option_map S (list_index x ys)
  end.

(** [x in xs]. *)
Definition contains (x : string) (xs : list string) : bool :=
  existsb (String.eqb x) xs.

(** [d[k]] on a dict with string keys, kept as its list of items. *)
Fixpoint dict_get {V : Type} (k : string) (d : list (string * V)) : result V :=
  match d with
  | [] => Raise (KeyError k)
  | (k', v) :: d' => if String.eqb k k' then Ok v else dict_get k d'
  end.

(** [xs[i]] for a non-negative index. *)
Definition list_get {V : Type} (xs : list V) (i : nat) : result V :=
  match nth_error xs i with
  | Some v => Ok v
  | None => Raise (IndexError "list index out of range")
  end.

(** *** datetime and timedelta

    An aware UTC [datetime] is the number of microseconds since
    1970-01-01T00:00:00Z, a [timedelta] a number of microseconds.  A naive
    datetime is given the UTC zone by every entry point, so it denotes the
    same count. *)

Definition datetime := Z.
Definition timedelta := Z.

Definition datetime_min : datetime := -62135596800000000.
Definition datetime_max : datetime := 253402300799999999.
Definition timedelta_max_days : Z := 999999999.

(** [str(n)] for a Python int. *)
Definition str_of_int (n : Z) : string := NilZero.string_of_int (Z.to_int n).

(** The message of the [OverflowError] raised for a timedelta of [days]
    days when that is too many: the day count is first converted to a C int,
    then checked against the range of [timedelta]. *)
Definition days_out_of_range_msg (days : Z) : string :=
  if (-2147483648 <=? days) && (days <=? 2147483647) then
    ("days=" ++ str_of_int days ++ "; must have magnitude <= 999999999")%string
  else "Python int too large to convert to C int"%string.

(** [timedelta(seconds=s)] for a float [s]: whole seconds are converted
    exactly, the fraction is scaled by [1e6] in floating point and the
    leftover is rounded half to even. *)
Definition round_leftover (leftover : float) (x_is_odd : bool) : Z :=
  let whole := c_round leftover in
  let whole :=
    if PrimFloat.eqb (abs (whole - leftover)) 0.5 then
      let o := if x_is_odd then 1%float else 0%float in
      (2 * c_round ((leftover + o) * 0.5) - o)%float
    else whole in
  trunc_Z whole.

Definition timedelta_seconds (seconds : float) : result timedelta :=
  if is_nan seconds then Raise (ValueError not_a_number_msg)
  else if is_inf seconds then Raise (OverflowError infinite_msg)
  else
    let intpart := trunc_Z seconds in
    let fracpart := (seconds - float_of_int intpart)%float in
    let sum := intpart * 1000000 in
    let us :=
      if PrimFloat.eqb fracpart 0 then sum
      else
        let dnum := (1000000 * fracpart)%float in
        let intpart2 := trunc_Z dnum in
        let leftover := (dnum - float_of_int intpart2)%float in
        let y := sum + intpart2 in
        y + round_leftover leftover (Z.odd y) in
    let days := us / 86400000000 in
    if (- timedelta_max_days <=? days) && (days <=? timedelta_max_days)
    then Ok us
    else Raise (OverflowError (days_out_of_range_msg days)).

(** [dt + td]. *)
Definition datetime_add (dt : datetime) (td : timedelta) : result datetime :=
  let r := dt + td in
  if (datetime_min <=? r) && (r <=? datetime_max) then Ok r
  else Raise (OverflowError "date value out of range").

(** [td.total_seconds()]. *)
Definition total_seconds (td : timedelta) : float := int_truediv td 1000000.

End Py.

Import Py.

Declare Scope py_scope.
Notation "x <- m ;; k" := (Py.bind m (fun x => k))
  (at level 61, m at next level, right associativity) : py_scope.
Open Scope py_scope.

(** ** app/core/vimshottari_tree.py *)

Module vimshottari_tree.

Open Scope Z_scope.

Definition DASHA_YEARS : list (string * Z) :=
  [ ("Ketu", 7); ("Venus", 20); ("Sun", 6); ("Moon", 10); ("Mars", 7);
    ("Rahu", 18); ("Jupiter", 16); ("Saturn", 19); ("Mercury", 17) ]%string.

Definition ORDER : list string :=
  [ "Ketu"; "Venus"; "Sun"; "Moon"; "Mars"; "Rahu"; "Jupiter"; "Saturn";
    "Mercury" ]%string.

(** A node is the dict built by [_make_node], with at most one more key
    holding the list of its children ([_attach_children]).  [_iso] renders an
    aware UTC datetime as its ISO-8601 text, which determines the instant;
    the model keeps the instant itself. *)
Inductive Node : Type :=
| mkNode (level lord : string) (start end_ : datetime)
         (children : option (string * list Node)).

Definition node_level (n : Node) : string :=
  match n with mkNode l _ _ _ _ => l end.
Definition node_lord (n : Node) : string :=
  match n with mkNode _ l _ _ _ => l end.
Definition node_start (n : Node) : datetime :=
  match n with mkNode _ _ s _ _ => s end.
Definition node_end (n : Node) : datetime :=
  match n with mkNode _ _ _ e _ => e end.
Definition node_children (n : Node) : option (string * list Node) :=
  match n with mkNode _ _ _ _ c => c end.

Definition _iso (dt : datetime) : datetime := dt.

Definition _add_days (dt : datetime) (days : float) : result datetime :=
  td <- timedelta_seconds (days * 86400)%float ;;
  datetime_add dt td.

Definition _days_of_years (years : float) : float := (years * 365.2425)%float.

Definition _next_lord (lord : string) : result string :=
  match list_index lord ORDER with
  | None => Raise (ValueError ("'" ++ lord ++ "' is not in list"))
  | Some i => list_get ORDER (Nat.modulo (i + 1) (List.length ORDER))
  end.

Definition _make_node (level lord : string) (start end_ : datetime) : Node :=
  mkNode level lord (_iso start) (_iso end_) None.

Definition _attach_children (node : Node) (key : string) (children : list Node)
  : Node :=
  match children with
  | [] => node
  | _ :: _ =>
      match node with
      | mkNode level lord s e _ => mkNode level lord s e (Some (key, children))
      end
  end.

(** The loop of [build_level_list] over the indices that remain. *)
Fixpoint level_list_loop (idxs : list nat) (level : string)
    (parent_days : float) (end_utc cur_start : datetime) (lord : string)
  : result (list Node) :=
  match idxs with
  | [] => Ok []
  | idx :: rest =>
      yrs <- dict_get lord DASHA_YEARS ;;
      let sub_days := (parent_days * (float_of_int yrs / 120))%float in
      cur_end <- _add_days cur_start sub_days ;;
      let cur_end :=
        if (Nat.eqb idx (List.length ORDER - 1) || (end_utc <? cur_end))%bool
        then end_utc else cur_end in
      let node := _make_node level lord cur_start cur_end in
      let cur_start := cur_end in
      lord <- _next_lord lord ;;
      if end_utc <=? cur_start then Ok [node]
      else
        more <- level_list_loop rest level parent_days end_utc cur_start lord ;;
        Ok (node :: more)
  end.

Definition build_level_list (level : string) (start_utc end_utc : datetime)
    (start_lord : string) : result (list Node) :=
  if negb (contains start_lord ORDER) then
    Raise (ValueError ("Invalid lord: " ++ start_lord))
  else if end_utc <=? start_utc then Ok []
  else
    let parent_days :=
      (total_seconds (end_utc - start_utc)%Z / 86400)%float in
    level_list_loop (seq 0 (List.length ORDER)) level parent_days end_utc
      start_utc start_lord.

(** The balance handed to the builders: [None], or a float clamped into
    [0, total]. *)
Definition clamp_balance (total : float) (balance : option float) : float :=
  match balance with
  | None => total
  | Some b =>
      let y := if PrimFloat.ltb b 0 then 0%float else b in
      if PrimFloat.ltb total y then total else y
  end.

Fixpoint full_md_loop (n : nat) (cur_start : datetime) (lord : string)
  : result (list Node) :=
  match n with
  | O => Ok []
  | S n' =>
      yrs <- dict_get lord DASHA_YEARS ;;
      let days := _days_of_years (float_of_int yrs) in
      e <- _add_days cur_start days ;;
      let node := _make_node "mahadasha" lord cur_start e in
      lord' <- _next_lord lord ;;
      more <- full_md_loop n' e lord' ;;
      Ok (node :: more)
  end.

Definition build_mahadasha_list_120y_9items (start_utc : datetime)
    (maha_lord : string) (maha_balance_years : option float)
  : result (list Node) :=
  if negb (contains maha_lord ORDER) then
    Raise (ValueError ("Invalid maha lord: " ++ maha_lord))
  else
    total <- dict_get maha_lord DASHA_YEARS ;;
    let first_total := float_of_int total in
    let first_years := clamp_balance first_total maha_balance_years in
    let cur_start := start_utc in
    let first_days := _days_of_years first_years in
    first_end <- _add_days cur_start first_days ;;
    let first := _make_node "mahadasha" maha_lord cur_start first_end in
    lord <- _next_lord maha_lord ;;
    more <- full_md_loop 8 first_end lord ;;
    Ok (first :: more).

(** One [for idx in range(len(ORDER))] loop of [build_vimshottari_tree].  The
    four nested loops of the source have the same shape: the span of the
    child is [parent_days * (years / 120)], the last child is forced to end at
    [parent_end], and [body] is what the source does between building the
    child's node and appending it (the next loop down, when there is one). *)
Fixpoint tree_loop (idxs : list nat) (level : string) (parent_days : float)
    (parent_end cur_start : datetime) (lord : string)
    (body : Node -> string -> datetime -> datetime -> float -> result Node)
  : result (list Node) :=
  match idxs with
  | [] => Ok []
  | idx :: rest =>
      years <- dict_get lord DASHA_YEARS ;;
      let days := (parent_days * (float_of_int years / 120))%float in
      cur_end <- _add_days cur_start days ;;
      let cur_end :=
        if Nat.eqb idx (List.length ORDER - 1) then parent_end else cur_end in
      let node := _make_node level lord cur_start cur_end in
      node <- body node lord cur_start cur_end days ;;
      lord' <- _next_lord lord ;;
      more <- tree_loop rest level parent_days parent_end cur_end lord' body ;;
      Ok (node :: more)
  end.

Definition range_order : list nat := seq 0 (List.length ORDER).

Definition build_vimshottari_tree (start_utc : datetime) (maha_lord : string)
    (maha_balance_years : option float) (max_levels : Z)
  : result (list Node) :=
  if negb (contains maha_lord ORDER) then
    Raise (ValueError ("Invalid maha lord: " ++ maha_lord))
  else
    total <- dict_get maha_lord DASHA_YEARS ;;
    let maha_total_years := float_of_int total in
    let maha_years := clamp_balance maha_total_years maha_balance_years in
    let maha_days := _days_of_years maha_years in
    let maha_start := start_utc in
    maha_end <- _add_days maha_start maha_days ;;
    let maha_node := _make_node "mahadasha" maha_lord maha_start maha_end in
    if max_levels <=? 1 then Ok [maha_node]
    else
      bhukti_nodes <-
        tree_loop range_order "bhukti" maha_days maha_end maha_start maha_lord
          (fun bh ad_lord cur_start cur_end ad_days =>
           if 2 <? max_levels then
             antara_nodes <-
               tree_loop range_order "antara" ad_days cur_end cur_start ad_lord
                 (fun an pd_lord cur2_start cur2_end pd_days =>
                  if 3 <? max_levels then
                    suk_nodes <-
                      tree_loop range_order "sukshma" pd_days cur2_end
                        cur2_start pd_lord
                        (fun su sd_lord cur3_start cur3_end sd_days =>
                         if 4 <? max_levels then
                           pr_nodes <-
                             tree_loop range_order "prana" sd_days cur3_end
                               cur3_start sd_lord
                               (fun pr _ _ _ _ => Ok pr) ;;
                           Ok (_attach_children su "prana" pr_nodes)
                         else Ok su) ;;
                    Ok (_attach_children an "sukshma" suk_nodes)
                  else Ok an) ;;
             Ok (_attach_children bh "antara" antara_nodes)
           else Ok bh) ;;
      Ok [_attach_children maha_node "bhukti" bhukti_nodes].

End vimshottari_tree.

(** ** app/core/vimshottari_utils.py *)

Module vimshottari_utils.

Open Scope Z_scope.

Definition ORDER : list string :=
  [ "Ketu"; "Venus"; "Sun"; "Moon"; "Mars"; "Rahu"; "Jupiter"; "Saturn";
    "Mercury" ]%string.

Definition DASHA_YEARS : list (string * Z) :=
  [ ("Ketu", 7); ("Venus", 20); ("Sun", 6); ("Moon", 10); ("Mars", 7);
    ("Rahu", 18); ("Jupiter", 16); ("Saturn", 19); ("Mercury", 17) ]%string.

Definition NAKSHATRA_SPAN : float := (13 + 20 / 60)%float.

Definition moon_vimshottari_info (moon_lon_sid : float)
  : result (string * float) :=
  let lon := py_mod moon_lon_sid 360 in
  nak_index <- py_int (py_floordiv lon NAKSHATRA_SPAN) ;;
  let nak_offset := py_mod lon NAKSHATRA_SPAN in
  lord <- list_get ORDER (Z.to_nat (nak_index mod 9)) ;;
  total_years <- dict_get lord DASHA_YEARS ;;
  let elapsed_ratio := (nak_offset / NAKSHATRA_SPAN)%float in
  let balance_years := (float_of_int total_years * (1 - elapsed_ratio))%float in
  Ok (lord, balance_years).

End vimshottari_utils.

(** ** app/core/kp_calc.py *)

Module kp_calc.

Open Scope Z_scope.

Definition NAKSHATRA_LORDS : list string :=
  [ "Ketu"; "Venus"; "Sun"; "Moon"; "Mars"; "Rahu"; "Jupiter"; "Saturn";
    "Mercury";
    "Ketu"; "Venus"; "Sun"; "Moon"; "Mars"; "Rahu"; "Jupiter"; "Saturn";
    "Mercury";
    "Ketu"; "Venus"; "Sun"; "Moon"; "Mars"; "Rahu"; "Jupiter"; "Saturn";
    "Mercury" ]%string.

Definition DASHA_ORDER : list (string * Z) :=
  [ ("Ketu", 7); ("Venus", 20); ("Sun", 6); ("Moon", 10); ("Mars", 7);
    ("Rahu", 18); ("Jupiter", 16); ("Saturn", 19); ("Mercury", 17) ]%string.

Definition TOTAL_YEARS : float := 120%float.

Definition _norm360 (x : float) : float :=
  let x := py_mod x 360 in
  if PrimFloat.leb 0 x then x else (x + 360)%float.

Definition star_size : float := (360 / 27)%float.

(** [xs[i]] for a Python int index: a negative index counts from the end. *)
Definition list_get_int {V : Type} (xs : list V) (i : Z) : result V :=
  let n := Z.of_nat (List.length xs) in
  if (0 <=? i) && (i <? n) then list_get xs (Z.to_nat i)
  else if (- n <=? i) && (i <? 0) then list_get xs (Z.to_nat (n + i))
  else Raise (IndexError "list index out of range").

(** [DASHA_ORDER[-1][0]]. *)
Definition last_lord : string := fst (List.last DASHA_ORDER (""%string, 0)).

(** The [for lord, years in DASHA_ORDER] loop that looks for the span holding
    [pos]: the lord found, with the lower bound [acc] and the width [span] of
    its span, or [None] when the loop runs to its end. *)
Fixpoint scan_spans (order : list (string * Z)) (span_total pos acc : float)
  : option (string * float * float) :=
  match order with
  | [] => None
  | (lord, years) :: rest =>
      let span := (span_total * (float_of_int years / TOTAL_YEARS))%float in
      if PrimFloat.leb pos (acc + span) then Some (lord, acc, span)
      else scan_spans rest span_total pos (acc + span)%float
  end.

(** The star index and the position inside the star of a normalized
    longitude. *)
Definition star_index_of (lon : float) : result Z :=
  py_int (py_floordiv lon star_size).

Definition pos_in_star_of (lon : float) (star_index : Z) : float :=
  (lon - float_of_int star_index * star_size)%float.

Definition kp_star_sub (lon : float) : result (string * string) :=
  let lon := _norm360 lon in
  star_index <- star_index_of lon ;;
  star_lord <- list_get_int NAKSHATRA_LORDS star_index ;;
  let pos_in_star := pos_in_star_of lon star_index in
  let sub_span_total := star_size in
  match scan_spans DASHA_ORDER sub_span_total pos_in_star 0 with
  | Some (lord, _, _) => Ok (star_lord, lord)
  | None => Ok (star_lord, last_lord)
  end.

Definition kp_star_sub_sub (lon : float) : result (string * string * string) :=
  r <- kp_star_sub lon ;;
  let (star, sub) := r in
  let lon := _norm360 lon in
  star_index <- star_index_of lon ;;
  let pos_in_star := pos_in_star_of lon star_index in
  let sub_span_total := star_size in
  let (pos_in_sub, sub_span) :=
    match scan_spans DASHA_ORDER sub_span_total pos_in_star 0 with
    | Some (_, acc, span) => ((pos_in_star - acc)%float, span)
    | None => (0%float, star_size)
    end in
  match scan_spans DASHA_ORDER sub_span pos_in_sub 0 with
  | Some (lord2, _, _) => Ok (star, sub, lord2)
  | None => Ok (star, sub, last_lord)
  end.

End kp_calc.

(** ** The [math] module

    The C library's elementary functions are not defined here: the code is
    modelled over any implementation of them.  CPython's wrappers turn a NaN
    result on a non-NaN argument, and an infinite result on a finite argument,
    into [ValueError: math domain error]. *)

Class Libm : Type :=
  { libm_sin : float -> float;
    libm_cos : float -> float;
    libm_tan : float -> float;
    libm_asin : float -> float;
    libm_acos : float -> float;
    libm_atan2 : float -> float -> float }.

Module math.

Definition pi : float := 0x1.921fb54442d18p+1%float.




Section WithLibm.
Context {L : Libm}.


End WithLibm.

End math.

(** ** app/core/houses_placidus.py *)

Module houses_placidus.

Open Scope float_scope.



Definition _wrap360 (x : float) : float := py_mod x 360.





(** The dict returned by [placidus_cusps]: its keys are fixed. *)
Record Cusps : Type :=
  { asc : float; mc : float;
    house1 : float; house2 : float; house3 : float; house4 : float;
    house5 : float; house6 : float; house7 : float; house8 : float;
    house9 : float; house10 : float; house11 : float; house12 : float }.


Section WithLibm.
Context {L : Libm}.











End WithLibm.

Definition siderealize_cusps (cusps_trop : Cusps) (ayanamsa_deg : float)
  : Cusps := cusps_trop.

End houses_placidus.

(** ** The position list of the ephemeris provider

    [get_planets_ecliptic] is an external collaborator; the code below only
    reads the keys ["name"] and ["lon"] of the dicts it returns, so a dict is
    kept as the optional values of these two keys. *)

Record Planet : Type :=
  { planet_name : option string;
    planet_lon : option float }.

(** [p.get("name", "")] and [p.get("lon", 0.0)]. *)
Definition get_name (p : Planet) : string :=
  match planet_name p with Some s => s | None => EmptyString end.

Definition get_lon (p : Planet) : float :=
  match planet_lon p with Some x => x | None => 0%float end.

(** [p["lon"]]. *)
Definition item_lon (p : Planet) : result float :=
  match planet_lon p with
  | Some x => Ok x
  | None => Raise (KeyError "lon")
  end.

(** ** app/core/panchangam_calc.py *)

Module panchangam_calc.

Open Scope float_scope.

Definition STAR_SPAN : float := 360 / 27.
Definition TITHI_SPAN : float := 12.
Definition KARANA_SPAN : float := 6.

Definition TITHI_NAMES : list string :=
  [ "Shukla Pratipada"; "Shukla Dwitiya"; "Shukla Tritiya";
    "Shukla Chaturthi"; "Shukla Panchami"; "Shukla Shashthi";
    "Shukla Saptami"; "Shukla Ashtami"; "Shukla Navami"; "Shukla Dashami";
    "Shukla Ekadashi"; "Shukla Dwadashi"; "Shukla Trayodashi";
    "Shukla Chaturdashi"; "Purnima";
    "Krishna Pratipada"; "Krishna Dwitiya"; "Krishna Tritiya";
    "Krishna Chaturthi"; "Krishna Panchami"; "Krishna Shashthi";
    "Krishna Saptami"; "Krishna Ashtami"; "Krishna Navami";
    "Krishna Dashami"; "Krishna Ekadashi"; "Krishna Dwadashi";
    "Krishna Trayodashi"; "Krishna Chaturdashi"; "Amavasya" ]%string.

Definition wrap360 (x : float) : float :=
  let x := py_mod x 360 in
  if 0 <=? x then x else x + 360.

(** The two passes of [_sun_moon_sid_at] over the position list: the last
    entries named "sun" and "moon" (in any letter case). *)
Fixpoint scan_sun_moon (planets : list Planet) (sun_t moon_t : option float)
  : option float * option float :=
  match planets with
  | [] => (sun_t, moon_t)
  | p :: rest =>
      let nm := lower (get_name p) in
      if String.eqb nm "sun" then scan_sun_moon rest (Some (get_lon p)) moon_t
      else if String.eqb nm "moon" then
        scan_sun_moon rest sun_t (Some (get_lon p))
      else scan_sun_moon rest sun_t moon_t
  end.

(** [_sun_moon_sid_at], given the position list that the provider returned
    for the instant. *)
Definition _sun_moon_sid_at (planets : list Planet) (ayan_deg : float)
  : result (float * float) :=
  r <- match scan_sun_moon planets None None with
       | (Some sun_t, Some moon_t) => Ok (sun_t, moon_t)
       | _ =>
           p0 <- list_get planets 0 ;;
           sun_t <- item_lon p0 ;;
           p1 <- list_get planets 1 ;;
           moon_t <- item_lon p1 ;;
           Ok (sun_t, moon_t)
       end ;;
  let (sun_t, moon_t) := r in
  let sun_s := wrap360 (sun_t - ayan_deg) in
  let moon_s := wrap360 (moon_t - ayan_deg) in
  Ok (sun_s, moon_s).

(** The tithi part of [compute_panchangam], as a function of the angular
    difference [d0 = wrap360 (moon0 - sun0)] at sunrise. *)
Definition tithi_idx (d0 : float) : result Z :=
  n <- math_floor (d0 / TITHI_SPAN) ;;
  Ok (n + 1)%Z.

Definition tithi_name (d0 : float) : result string :=
  idx <- tithi_idx d0 ;;
  list_get TITHI_NAMES (Z.to_nat ((idx - 1) mod 30)).

Definition tithi_target (d0 : float) : result float :=
  n <- math_floor (d0 / TITHI_SPAN) ;;
  Ok (float_of_int (n + 1) * TITHI_SPAN).

End panchangam_calc.

(** ** main.py: the dasha session *)

Module main.

Open Scope float_scope.

Definition norm360 (x : float) : float :=
  let x := py_mod x 360 in
  if 0 <=? x then x else x + 360.

(** The first entry named "moon" (in any letter case), reduced modulo 360. *)
Fixpoint find_moon_trop (planets : list Planet) : option float :=
  match planets with
  | [] => None
  | p :: rest =>
      if String.eqb (lower (get_name p)) "moon"
      then Some (py_mod (get_lon p) 360)
      else find_moon_trop rest
  end.

(** What [_ensure_session] computes from the position list and the ayanamsa
    chosen for the request: [moon_sid], [maha_lord] and [balance_years] of the
    session. *)
Definition _ensure_session (planets : list Planet) (ayan : float)
  : result (float * string * float) :=
  match find_moon_trop planets with
  | None => Raise (ValueError "Moon not found in NASA planets list")
  | Some moon_trop =>
      let moon_sid := norm360 (moon_trop - ayan) in
      r <- vimshottari_utils.moon_vimshottari_info moon_sid ;;
      let (maha_lord, balance_years) := r in
      let balance_years := py_max 0 balance_years in
      Ok (moon_sid, maha_lord, balance_years)
  end.

End main.

(** ** Properties of period lists and trees *)

Module Partition.

Import vimshottari_tree.
Open Scope string_scope.
Open Scope Z_scope.

Definition span (n : Node) : Z := node_end n - node_start n.

Definition total_span (l : list Node) : Z := fold_right Z.add 0 (map span l).

(** The node [k] lies inside the interval from [s] to [e], and does not end
    before it starts. *)
Definition inside (s e : datetime) (k : Node) : Prop :=
  s <= node_start k /\ node_start k <= node_end k /\ node_end k <= e.

(** The non-empty list [kids] partitions the interval from [s] to [e]: the
    first node starts at [s], every other node starts where the one before it
    ends, the last node ends at [e], the spans add up to [e - s], and every
    node is an interval ([start <= end]) that lies inside the parent's. *)
Definition partitions (s e : datetime) (kids : list Node) : Prop :=
  kids <> [] /\
  (forall k, hd_error kids = Some k -> node_start k = s) /\
  (forall i a b, nth_error kids i = Some a -> nth_error kids (S i) = Some b ->
                 node_start b = node_end a) /\
  (forall k, nth_error kids (List.length kids - 1) = Some k -> node_end k = e) /\
  total_span kids = e - s /\
  Forall (inside s e) kids.

(** Every node of the tree that has children is partitioned by them. *)
Fixpoint well_partitioned (n : Node) : Prop :=
  match n with
  | mkNode _ _ s e None => True
  | mkNode _ _ s e (Some (_, kids)) =>
      partitions s e kids /\
      (fix all (l : list Node) : Prop :=
         match l with
         | [] => True
         | k :: l' => well_partitioned k /\ all l'
         end) kids
  end.

(** The boundaries of [l] chain from [s] to [e]: the first node starts at
    [s], every other node starts where the one before it ends, and the last
    node ends at [e].  Nothing is said about the order of a node's own start
    and end, so this is weaker than [partitions]: a chain may run past [e]
    and come back. *)
Fixpoint chained (s e : datetime) (l : list Node) : Prop :=
  match l with
  | [] => s = e
  | n :: l' => node_start n = s /\ chained (node_end n) e l'
  end.

(** Every node of the tree that has children has their boundaries chained
    from its start to its end. *)
Fixpoint well_chained (n : Node) : Prop :=
  match n with
  | mkNode _ _ s e None => True
  | mkNode _ _ s e (Some (_, kids)) =>
      (kids <> [] /\ chained s e kids) /\
      (fix all (l : list Node) : Prop :=
         match l with
         | [] => True
         | k :: l' => well_chained k /\ all l'
         end) kids
  end.

(** What the code run for a child guarantees: the node it returns keeps the
    bounds of the node it was given and is itself well chained. *)
Definition body_ok
    (body : Node -> string -> datetime -> datetime -> float -> result Node)
  : Prop :=
  forall level lord s e d n,
    body (_make_node level lord s e) lord s e d = Ok n ->
    node_start n = s /\ node_end n = e /\ well_chained n.

(** The tree that [build_vimshottari_tree] returns for a mahadasha of ten
    microseconds, and the list that [build_level_list] returns for the same
    ten microseconds. *)
Definition ten_microsecond_bhuktis : list Node :=
  [ mkNode "bhukti" "Ketu" 0 1 None;
    mkNode "bhukti" "Venus" 1 3 None;
    mkNode "bhukti" "Sun" 3 4 None;
    mkNode "bhukti" "Moon" 4 5 None;
    mkNode "bhukti" "Mars" 5 6 None;
    mkNode "bhukti" "Rahu" 6 8 None;
    mkNode "bhukti" "Jupiter" 8 9 None;
    mkNode "bhukti" "Saturn" 9 11 None;
    mkNode "bhukti" "Mercury" 11 10 None ].

Definition ten_microsecond_tree : list Node :=
  [ mkNode "mahadasha" "Ketu" 0 10 (Some ("bhukti", ten_microsecond_bhuktis)) ].

Definition ten_microsecond_level_list : list Node :=
  [ mkNode "bhukti" "Ketu" 0 1 None;
    mkNode "bhukti" "Venus" 1 3 None;
    mkNode "bhukti" "Sun" 3 4 None;
    mkNode "bhukti" "Moon" 4 5 None;
    mkNode "bhukti" "Mars" 5 6 None;
    mkNode "bhukti" "Rahu" 6 8 None;
    mkNode "bhukti" "Jupiter" 8 9 None;
    mkNode "bhukti" "Saturn" 9 10 None ].

End Partition.

(** ** The KP lattice as the specification words it

    The specification lays the nine sub-spans of a star out in cyclic order
    starting from the star's own lord.  [spec_sub_order] is that order and
    [spec_kp_star_sub] is [kp_star_sub] with it; they are compared with the
    code below. *)

Module kp_spec.

Import kp_calc.

(** [DASHA_ORDER], rotated to start at [lord]. *)
Fixpoint rotate_to (lord : string) (seen todo : list (string * Z))
  : list (string * Z) :=
  match todo with
  | [] => seen
  | (l, y) :: rest =>
      if String.eqb l lord then todo ++ seen
      else rotate_to lord (seen ++ [(l, y)]) rest
  end.

Definition spec_sub_order (lord : string) : list (string * Z) :=
  rotate_to lord [] DASHA_ORDER.

Definition spec_kp_star_sub (lon : float) : result (string * string) :=
  let lon := _norm360 lon in
  star_index <- star_index_of lon ;;
  star_lord <- list_get_int NAKSHATRA_LORDS star_index ;;
  let pos_in_star := pos_in_star_of lon star_index in
  match scan_spans (spec_sub_order star_lord) star_size pos_in_star 0 with
  | Some (lord, _, _) => Ok (star_lord, lord)
  | None =>
      Ok (star_lord, fst (List.last (spec_sub_order star_lord) (""%string, 0%Z)))
  end.

(** The width of the first sub-span of a star in the code's layout, and of
    the first sub-sub-span of a sub-span of width [sub_span]. *)
Definition first_span (span_total : float) : float :=
  (0 + span_total * (float_of_int 7 / TOTAL_YEARS))%float.

(** The lord of the span that holds [pos] when [span_total] is laid out in
    [DASHA_ORDER], from Ketu on. *)
Definition lord_from_ketu (span_total pos : float) : string :=
  match scan_spans DASHA_ORDER span_total pos 0 with
  | Some (lord, _, _) => lord
  | None => last_lord
  end.

(** The position inside its sub-span, and the width of that sub-span, as
    [kp_star_sub_sub] computes them. *)
Definition sub_position (pos_in_star : float) : float * float :=
  match scan_spans DASHA_ORDER star_size pos_in_star 0 with
  | Some (_, acc, span) => ((pos_in_star - acc)%float, span)
  | None => (0%float, star_size)
  end.

End kp_spec.

(** ** Position lists without a body *)

Definition has_body (body : string) (planets : list Planet) : bool :=
  existsb (fun p => String.eqb (lower (get_name p)) body) planets.

(** ** The nakshatra rule in the words of the specification

    The rule the specification gives for the Moon's nakshatra, on longitudes
    counted in whole minutes of arc, where the span of 13 degrees 20 minutes
    is exactly 800 minutes.  These definitions follow the specification, not
    the code; the theorems compare them with
    [vimshottari_utils.moon_vimshottari_info]. *)

Module vimshottari_spec.

Open Scope Z_scope.






End vimshottari_spec.

(** ** The numbers that floats denote

    Every finite binary64 number is a whole multiple of [2^-1074].  The
    value of a float is kept as that whole number, so that the order and the
    sums of values are the order and the sums of integers. *)

Module Flt.

Open Scope Z_scope.

Definition scaled (f : spec_float) : option Z :=
  match f with
  | S754_zero _ => Some 0
  | S754_finite s m e => Some (cond_Zopp s (Zpos m * 2 ^ (e + 1074)))
  | S754_infinity _ | S754_nan => None
  end.

(** The value of [x] in units of [2^-1074]; [None] for infinities and NaN. *)
Definition value (x : float) : option Z := scaled (Prim2SF x).


(** [x] is a number and [|x| <= 2^k]. *)
Definition bounded_by (k : Z) (x : float) : Prop :=
  exists v, value x = Some v /\ Z.abs v <= 2 ^ (k + 1074).

(** [x] is a number and [lo <= x <= hi], the bounds in units of [2^-1074]. *)
Definition between (lo hi : Z) (x : float) : Prop :=
  exists v, value x = Some v /\ lo <= v <= hi.


End Flt.

(** What the cusp code needs of the C library.  On numbers, [sin] and [cos]
    stay within [-1, 1] and [tan] is a number; on [-1, 1], [asin] stays
    within [-2, 2] and [acos] within [-4, 4]; [atan2] of two arguments that
    are not NaN stays within [-4, 4].  The functions of an actual C library
    satisfy this: their ranges are [-pi/2, pi/2], [0, pi] and [-pi, pi], and
    no binary64 number is close enough to an odd multiple of [pi/2] for
    [tan] to overflow. *)
Record LibmInRange (L : Libm) : Prop :=
  { sin_range : forall x, is_finite x = true ->
                  PrimFloat.leb (abs (libm_sin x)) 1 = true;
    cos_range : forall x, is_finite x = true ->
                  PrimFloat.leb (abs (libm_cos x)) 1 = true;
    tan_finite : forall x, is_finite x = true ->
                   is_finite (libm_tan x) = true;
    asin_range : forall x, PrimFloat.leb (abs x) 1 = true ->
                   PrimFloat.leb (abs (libm_asin x)) 2 = true;
    acos_range : forall x, PrimFloat.leb (abs x) 1 = true ->
                   PrimFloat.leb (abs (libm_acos x)) 4 = true;
    atan2_range : forall y x, is_nan y = false -> is_nan x = false ->
                    PrimFloat.leb (abs (libm_atan2 y x)) 4 = true }.


(** A C library whose functions answer, at every argument, what the real
    ones answer at 0: enough to run the cusp code on concrete inputs. *)
Definition libm_at_zero : Libm :=
  {| libm_sin := fun _ => 0%float; libm_cos := fun _ => 1%float;
     libm_tan := fun _ => 0%float; libm_asin := fun _ => 0%float;
     libm_acos := fun _ => (math.pi / 2)%float;
     libm_atan2 := fun _ _ => 0%float |}.

(** * Theorems *)

(** ** The error monad *)

Lemma bind_ok_inv {A B : Type} (m : result A) (k : A -> result B) (b : B) :
  Py.bind m k = Ok b -> exists a, m = Ok a /\ k a = Ok b.
Proof.
  destruct m as [a|e]; simpl; intro H; [exists a; auto | discriminate].
Qed.

Ltac inv_bind H :=
  let a := fresh "a" in
  let Ha := fresh "Ha" in
  apply bind_ok_inv in H; destruct H as (a & Ha & H).

(** ** Period trees: children partition their parent *)

Section PartitionFacts.

Import vimshottari_tree Partition.
Open Scope Z_scope.

Lemma chained_total_span s e l : chained s e l -> total_span l = e - s.
Proof.
  revert s; induction l as [|n l IH]; simpl; intros s H.
  - subst; unfold total_span; simpl; lia.
  - destruct H as [Hs Hc]. apply IH in Hc.
    unfold total_span in *; simpl. unfold span at 1. lia.
Qed.

Lemma chained_adjacent s e l i a b :
  chained s e l -> nth_error l i = Some a -> nth_error l (S i) = Some b ->
  node_start b = node_end a.
Proof.
  revert s i; induction l as [|n l IH]; intros s i Hc Ha Hb.
  - destruct i; discriminate.
  - destruct Hc as [_ Hc]. destruct i as [|i].
    + simpl in Ha; injection Ha as ->.
      destruct l as [|n' l]; [discriminate|].
      simpl in Hb; injection Hb as ->. destruct Hc as [Hc _]; exact Hc.
    + simpl in Ha. change (nth_error l (S i) = Some b) in Hb. eauto.
Qed.

Lemma chained_last s e l k :
  chained s e l -> nth_error l (List.length l - 1) = Some k -> node_end k = e.
Proof.
  revert s; induction l as [|n l IH]; intros s Hc Hk.
  - discriminate.
  - destruct Hc as [_ Hc]. destruct l as [|n' l].
    + simpl in Hk; injection Hk as ->. exact Hc.
    + apply (IH (node_end n) Hc).
      replace (List.length (n :: n' :: l) - 1)%nat
        with (S (List.length (n' :: l) - 1))%nat in Hk by (simpl; lia).
      exact Hk.
Qed.

Lemma chained_inside_partitions s e l :
  l <> [] -> chained s e l -> Forall (inside s e) l -> partitions s e l.
Proof.
  intros Hne Hc Hin; repeat split.
  - exact Hne.
  - intros k Hk. destruct l as [|n l]; [discriminate|].
    simpl in Hk; injection Hk as <-. exact (proj1 Hc).
  - intros i a b. apply chained_adjacent with (1 := Hc).
  - intros k. apply chained_last with (1 := Hc).
  - apply chained_total_span; exact Hc.
  - exact Hin.
Qed.

Lemma well_chained_children level lord s e key kids :
  kids <> [] -> chained s e kids -> Forall well_chained kids ->
  well_chained (mkNode level lord s e (Some (key, kids))).
Proof.
  intros Hne Hc Hall; simpl; split; [split; assumption|].
  clear Hne Hc. induction Hall as [|k l Hk _ IH]; [exact I | split; assumption].
Qed.

Lemma last_index_forces_end (idx : nat) (rest : list nat) :
  List.last (idx :: rest) O = (List.length ORDER - 1)%nat -> rest = [] ->
  Nat.eqb idx (List.length ORDER - 1) = true.
Proof. intros H ->; simpl in H; subst; reflexivity. Qed.

Lemma tree_loop_chained idxs : forall level parent_days parent_end cur_start
    lord body nodes,
  body_ok body ->
  idxs <> [] -> List.last idxs O = (List.length ORDER - 1)%nat ->
  tree_loop idxs level parent_days parent_end cur_start lord body = Ok nodes ->
  nodes <> [] /\ chained cur_start parent_end nodes /\
  Forall well_chained nodes.
Proof.
  induction idxs as [|idx rest IH]; intros level pd pe cs lord body nodes
    Hbody Hne Hlast Hrun; [congruence|].
  cbn [tree_loop] in Hrun.
  inv_bind Hrun. inv_bind Hrun. inv_bind Hrun. inv_bind Hrun. inv_bind Hrun.
  injection Hrun as <-.
  apply Hbody in Ha1. destruct Ha1 as (Hs & He & Hwp).
  split; [discriminate|].
  destruct rest as [|idx' rest'].
  - rewrite (last_index_forces_end idx [] Hlast eq_refl) in He.
    simpl in Ha3; injection Ha3 as <-.
    simpl; repeat split; auto.
  - destruct (IH _ _ _ _ _ _ _ Hbody ltac:(discriminate) Hlast Ha3)
      as (_ & Hc & Hall).
    simpl; repeat split; auto.
    rewrite He; exact Hc.
Qed.

Lemma make_node_well_chained level lord s e :
  well_chained (_make_node level lord s e).
Proof. exact I. Qed.

Lemma attach_children_ok level lord s e key kids :
  kids <> [] -> chained s e kids -> Forall well_chained kids ->
  let n := _attach_children (_make_node level lord s e) key kids in
  node_start n = s /\ node_end n = e /\ well_chained n.
Proof.
  intros Hne Hc Hall. destruct kids as [|k kids]; [congruence|].
  cbn [_attach_children _make_node node_start node_end _iso].
  split; [reflexivity | split; [reflexivity|]].
  apply well_chained_children; assumption.
Qed.

Lemma range_order_last :
  range_order <> [] /\ List.last range_order O = (List.length ORDER - 1)%nat.
Proof. split; [discriminate | reflexivity]. Qed.

(** A level whose children are built by one more loop. *)
Lemma nested_body_ok (deeper : bool) key level'
    (inner : Node -> string -> datetime -> datetime -> float -> result Node) :
  body_ok inner ->
  body_ok (fun node lord cur_start cur_end days =>
             if deeper then
               kids <- tree_loop range_order level' days cur_end cur_start
                         lord inner ;;
               Ok (_attach_children node key kids)
             else Ok node).
Proof.
  intros Hinner level lord s e d n Hrun.
  destruct deeper.
  - inv_bind Hrun. injection Hrun as <-.
    destruct range_order_last as [Hne Hlast].
    destruct (tree_loop_chained _ _ _ _ _ _ _ _ Hinner Hne Hlast Ha)
      as (Hne' & Hc & Hall).
    apply attach_children_ok; auto.
  - injection Hrun as <-. simpl; auto.
Qed.

Lemma leaf_body_ok : body_ok (fun pr _ _ _ _ => Ok pr).
Proof. intros level lord s e d n H; injection H as <-; simpl; auto. Qed.

Lemma build_vimshottari_tree_chained start_utc maha_lord balance
    max_levels tree :
  build_vimshottari_tree start_utc maha_lord balance max_levels = Ok tree ->
  Forall well_chained tree.
Proof.
  unfold build_vimshottari_tree.
  destruct (negb (contains maha_lord ORDER)); [discriminate|].
  intro H. inv_bind H. inv_bind H.
  destruct (max_levels <=? 1).
  - injection H as <-. repeat constructor.
  - inv_bind H. injection H as <-.
    destruct range_order_last as [Hne Hlast].
    pose proof (nested_body_ok (2 <? max_levels) "antara" "antara" _
      (nested_body_ok (3 <? max_levels) "sukshma" "sukshma" _
        (nested_body_ok (4 <? max_levels) "prana" "prana" _ leaf_body_ok)))
      as Hbody.
    destruct (tree_loop_chained _ _ _ _ _ _ _ _ Hbody Hne Hlast Ha1)
      as (Hne' & Hc & Hall).
    constructor; [|constructor].
    apply attach_children_ok; auto.
Qed.

Lemma level_list_loop_chained idxs : forall level parent_days end_utc
    cur_start lord nodes,
  idxs <> [] -> List.last idxs O = (List.length ORDER - 1)%nat ->
  level_list_loop idxs level parent_days end_utc cur_start lord = Ok nodes ->
  nodes <> [] /\ chained cur_start end_utc nodes /\
  Forall (fun k => node_end k <= end_utc) nodes.
Proof.
  induction idxs as [|idx rest IH]; intros level pd e cs lord nodes
    Hne Hlast Hrun; [congruence|].
  cbn [level_list_loop] in Hrun.
  inv_bind Hrun. inv_bind Hrun. inv_bind Hrun.
  set (forced := (Nat.eqb idx (List.length ORDER - 1) || (e <? a0))%bool) in *.
  set (cur_end := if forced then e else a0) in *.
  assert (Hle : cur_end <= e).
  { subst cur_end forced.
    destruct (Nat.eqb idx (List.length ORDER - 1)); cbn [orb]; [lia|].
    destruct (e <? a0) eqn:Hlt; [lia|]. apply Z.ltb_ge in Hlt. exact Hlt. }
  destruct (e <=? cur_end) eqn:Hstop.
  - injection Hrun as <-. split; [discriminate|].
    apply Z.leb_le in Hstop.
    split.
    + cbn [chained _make_node node_start node_end]. unfold _iso.
      split; [reflexivity | lia].
    + constructor; [|constructor].
      cbn [_make_node node_end]. unfold _iso. exact Hle.
  - inv_bind Hrun. injection Hrun as <-. split; [discriminate|].
    destruct rest as [|idx' rest'].
    + exfalso. subst cur_end forced.
      rewrite (last_index_forces_end idx [] Hlast eq_refl) in Hstop.
      simpl in Hstop. lia.
    + destruct (IH _ _ _ _ _ _ ltac:(discriminate) Hlast Ha2) as (_ & Hc & Hall).
      split.
      * cbn [chained _make_node node_start node_end]. unfold _iso.
        split; [reflexivity | exact Hc].
      * constructor; [|exact Hall].
        cbn [_make_node node_end]. unfold _iso. exact Hle.
Qed.

(** The list of [build_level_list] for a window with [start < end] is not
    empty, its boundaries chain from the window's start to its end, and no
    node ends after the window does. *)
Lemma build_level_list_chained level start_utc end_utc start_lord nodes :
  start_utc < end_utc ->
  build_level_list level start_utc end_utc start_lord = Ok nodes ->
  nodes <> [] /\ chained start_utc end_utc nodes /\
  Forall (fun k => node_end k <= end_utc) nodes.
Proof.
  unfold build_level_list. intros Hlt H.
  destruct (negb (contains start_lord ORDER)); [discriminate|].
  destruct (end_utc <=? start_utc) eqn:Hdeg; [lia|].
  destruct range_order_last as [Hne Hlast].
  exact (level_list_loop_chained _ _ _ _ _ _ _ Hne Hlast H).
Qed.

End PartitionFacts.

(** C1: the children that [build_vimshottari_tree] produces do not always
    partition their parent.  For a mahadasha of Ketu that starts at
    1970-01-01T00:00:00Z with a balance of 3.2e-13 years and [max_levels = 2],
    the mahadasha lasts ten microseconds, from 0 to 10; its eighth bhukti
    (Saturn) runs from 9 to 11, one microsecond past the end of the parent,
    and its ninth bhukti (Mercury), whose end is forced to the parent's, runs
    from 11 to 10 and so ends before it starts.  Saturn and Mercury overlap,
    the children are not a partition of the parent, and the tree is not well
    partitioned.  [build_level_list] on the same ten microseconds stops at
    Saturn, which it cuts at the window's end, and its eight nodes do
    partition the window: it compares each child's end with the parent's,
    which the loops of [build_vimshottari_tree] do not. *)
Theorem C1_eager_children_overrun_parent :
  vimshottari_tree.build_vimshottari_tree 0 "Ketu" (Some 3.2e-13%float) 2
    = Ok Partition.ten_microsecond_tree /\
  nth_error Partition.ten_microsecond_bhuktis 7
    = Some (vimshottari_tree.mkNode "bhukti" "Saturn" 9 11 None) /\
  nth_error Partition.ten_microsecond_bhuktis 8
    = Some (vimshottari_tree.mkNode "bhukti" "Mercury" 11 10 None) /\
  ~ Partition.partitions 0 10 Partition.ten_microsecond_bhuktis /\
  ~ Forall Partition.well_partitioned Partition.ten_microsecond_tree /\
  vimshottari_tree.build_level_list "bhukti" 0 10 "Ketu"
    = Ok Partition.ten_microsecond_level_list /\
  Partition.partitions 0 10 Partition.ten_microsecond_level_list.
Proof.
  assert (Hno : ~ Partition.partitions 0 10 Partition.ten_microsecond_bhuktis).
  { intros (_ & _ & _ & _ & _ & Hin).
    assert (Hsat : Partition.inside 0 10
                     (vimshottari_tree.mkNode "bhukti" "Saturn" 9 11 None)).
    { apply (proj1 (Forall_forall _ _) Hin).
      unfold Partition.ten_microsecond_bhuktis.
      do 7 right. left. reflexivity. }
    destruct Hsat as (_ & _ & Hend).
    cbn [vimshottari_tree.node_end] in Hend. lia. }
  split; [vm_compute; reflexivity|].
  split; [reflexivity|].
  split; [reflexivity|].
  split; [exact Hno|].
  split.
  - intro Hall. apply Forall_inv in Hall.
    apply Hno. exact (proj1 Hall).
  - split; [vm_compute; reflexivity|].
    apply chained_inside_partitions.
    + discriminate.
    + unfold Partition.ten_microsecond_level_list.
      cbn [Partition.chained vimshottari_tree.node_start
           vimshottari_tree.node_end].
      repeat split.
    + unfold Partition.ten_microsecond_level_list, Partition.inside.
      repeat constructor;
        cbn [vimshottari_tree.node_start vimshottari_tree.node_end]; lia.
Qed.

(** ** Period trees: invalid lords *)

Lemma not_in_order_contains lord :
  ~ In lord vimshottari_tree.ORDER ->
  contains lord vimshottari_tree.ORDER = false.
Proof.
  intro Hnot. unfold contains.
  destruct (existsb (String.eqb lord) vimshottari_tree.ORDER) eqn:E; auto.
  apply existsb_exists in E. destruct E as (x & Hin & Heq).
  apply String.eqb_eq in Heq. subst x. contradiction.
Qed.

(** C8: for a lord that is not one of the nine symbols, each entry point of
    the period-tree module (the eager tree builder, the single-level builder
    and the 9-mahadasha list builder) raises the [ValueError] of its input
    check, whatever its other arguments are; no tree or list is returned. *)
Theorem C8_invalid_lord_is_rejected :
  forall (lord : string), ~ In lord vimshottari_tree.ORDER ->
  forall (start_utc end_utc : datetime) (level : string)
         (balance : option float) (max_levels : Z),
    vimshottari_tree.build_vimshottari_tree start_utc lord balance max_levels
      = Raise (ValueError ("Invalid maha lord: " ++ lord)) /\
    vimshottari_tree.build_level_list level start_utc end_utc lord
      = Raise (ValueError ("Invalid lord: " ++ lord)) /\
    vimshottari_tree.build_mahadasha_list_120y_9items start_utc lord balance
      = Raise (ValueError ("Invalid maha lord: " ++ lord)).
Proof.
  intros lord Hnot start_utc end_utc level balance max_levels.
  apply not_in_order_contains in Hnot.
  unfold vimshottari_tree.build_vimshottari_tree,
    vimshottari_tree.build_level_list,
    vimshottari_tree.build_mahadasha_list_120y_9items.
  rewrite Hnot. simpl. auto.
Qed.

Lemma C8_invalid_lord_is_rejected_witness :
  ~ In "Pluto"%string vimshottari_tree.ORDER /\
  vimshottari_tree.build_vimshottari_tree 0 "Pluto" None 5
    = Raise (ValueError "Invalid maha lord: Pluto") /\
  vimshottari_tree.build_level_list "bhukti" 0 86400000000 "Pluto"
    = Raise (ValueError "Invalid lord: Pluto") /\
  vimshottari_tree.build_mahadasha_list_120y_9items 0 "Pluto" None
    = Raise (ValueError "Invalid maha lord: Pluto").
Proof.
  assert (H : ~ In "Pluto"%string vimshottari_tree.ORDER).
  { simpl. intros H. repeat (destruct H as [H|H]; [discriminate|]). exact H. }
  split; [exact H|].
  exact (C8_invalid_lord_is_rejected "Pluto" H 0%Z 86400000000%Z "bhukti"
           None 5%Z).
Defined.

(** ** Cusps: the sidereal conversion is switched off *)

(** C10: [siderealize_cusps] returns the cusps it is given, for every
    ayanamsa value; applying it any number of times, with any offsets, leaves
    the tropical cusps as they were. *)
Theorem C10_siderealize_cusps_is_identity :
  (forall (cusps : houses_placidus.Cusps) (ayanamsa_deg : float),
      houses_placidus.siderealize_cusps cusps ayanamsa_deg = cusps) /\
  (forall (cusps : houses_placidus.Cusps) (offsets : list float),
      fold_left houses_placidus.siderealize_cusps offsets cusps = cusps).
Proof.
  split.
  - reflexivity.
  - intros cusps offsets; induction offsets as [|a l IH]; simpl; auto.
Qed.

(** ** The KP lattice: where the sub-spans start *)

Section KpFacts.

Import kp_calc kp_spec.
Open Scope float_scope.

Lemma scan_first_is_ketu span_total pos :
  (pos <=? first_span span_total) = true ->
  lord_from_ketu span_total pos = "Ketu"%string.
Proof.
  unfold lord_from_ketu, first_span. intro H.
  cbn [scan_spans DASHA_ORDER]. rewrite H. reflexivity.
Qed.

Lemma kp_star_sub_inv lon star sub :
  kp_star_sub lon = Ok (star, sub) ->
  exists idx,
    star_index_of (_norm360 lon) = Ok idx /\
    list_get_int NAKSHATRA_LORDS idx = Ok star /\
    sub = lord_from_ketu star_size (pos_in_star_of (_norm360 lon) idx).
Proof.
  unfold kp_star_sub. intro H. inv_bind H. inv_bind H.
  exists a. split; [exact Ha|]. unfold lord_from_ketu.
  destruct (scan_spans DASHA_ORDER star_size (pos_in_star_of (_norm360 lon) a) 0)
    as [[[l ac] sp]|]; injection H as <- <-; auto.
Qed.

Lemma kp_star_sub_sub_inv lon star sub subsub :
  kp_star_sub_sub lon = Ok (star, sub, subsub) ->
  exists idx,
    star_index_of (_norm360 lon) = Ok idx /\
    kp_star_sub lon = Ok (star, sub) /\
    let pos_in_star := pos_in_star_of (_norm360 lon) idx in
    subsub = lord_from_ketu (snd (sub_position pos_in_star))
                            (fst (sub_position pos_in_star)).
Proof.
  unfold kp_star_sub_sub. intro H. inv_bind H. destruct a as [st sb].
  inv_bind H. exists a. split; [exact Ha0|].
  unfold sub_position, lord_from_ketu.
  destruct (scan_spans DASHA_ORDER star_size (pos_in_star_of (_norm360 lon) a) 0)
    as [[[l ac] sp]|]; cbn [fst snd] in *.
  - destruct (scan_spans DASHA_ORDER sp (pos_in_star_of (_norm360 lon) a - ac) 0)
      as [[[l2 ac2] sp2]|]; injection H as <- <- <-; auto.
  - destruct (scan_spans DASHA_ORDER star_size 0 0)
      as [[[l2 ac2] sp2]|]; injection H as <- <- <-; auto.
Qed.

End KpFacts.

(** C2, as the claim states it, fails: at longitude 13.4 the star is Venus
    and the position lies in the first sub-span of the star, yet the code
    answers Ketu as sub lord, where the layout of the claim (the cycle
    restarted at the star lord) gives Venus. *)
Lemma C2_sub_cycle_does_not_restart_at_star_lord :
  (0 <=? 13.4)%float = true /\ (13.4 <? 360)%float = true /\
  kp_calc.kp_star_sub 13.4 = Ok ("Venus", "Ketu")%string /\
  kp_spec.spec_kp_star_sub 13.4 = Ok ("Venus", "Venus")%string /\
  kp_calc.kp_star_sub 13.4 <> kp_spec.spec_kp_star_sub 13.4.
Proof.
  repeat split; try (vm_compute; reflexivity).
  vm_compute. discriminate.
Qed.

(** C2, amended: for every longitude for which [kp_star_sub_sub] answers
    (star, sub, sub-sub), the sub lord is the lord of the span that holds the
    position inside the star when the star is laid out in the canonical order
    from Ketu on, whatever the star lord is, and the sub-sub lord is found in
    the same way inside the sub-span, again from Ketu on; so the first
    sub-span of any star has Ketu as sub lord, and the first sub-sub-span of
    any sub-span has Ketu as sub-sub lord. *)
Theorem C2_sub_spans_start_at_ketu :
  forall (lon : float) (star sub subsub : string),
    kp_calc.kp_star_sub_sub lon = Ok (star, sub, subsub) ->
    exists idx : Z,
      kp_calc.star_index_of (kp_calc._norm360 lon) = Ok idx /\
      kp_calc.list_get_int kp_calc.NAKSHATRA_LORDS idx = Ok star /\
      let pos_in_star := kp_calc.pos_in_star_of (kp_calc._norm360 lon) idx in
      let pos_in_sub := fst (kp_spec.sub_position pos_in_star) in
      let sub_span := snd (kp_spec.sub_position pos_in_star) in
      sub = kp_spec.lord_from_ketu kp_calc.star_size pos_in_star /\
      subsub = kp_spec.lord_from_ketu sub_span pos_in_sub /\
      ((pos_in_star <=? kp_spec.first_span kp_calc.star_size)%float = true ->
       sub = "Ketu"%string) /\
      ((pos_in_sub <=? kp_spec.first_span sub_span)%float = true ->
       subsub = "Ketu"%string).
Proof.
  intros lon star sub subsub H.
  destruct (kp_star_sub_sub_inv _ _ _ _ H) as (idx & Hidx & Hsub & Hss).
  destruct (kp_star_sub_inv _ _ _ Hsub) as (idx' & Hidx' & Hstar & Hs).
  rewrite Hidx in Hidx'. injection Hidx' as <-.
  exists idx. split; [exact Hidx|]. split; [exact Hstar|].
  cbv zeta in *. split; [exact Hs|]. split; [exact Hss|]. split.
  - intro Hle. rewrite Hs. apply scan_first_is_ketu; exact Hle.
  - intro Hle. rewrite Hss. apply scan_first_is_ketu; exact Hle.
Qed.

Lemma C2_sub_spans_start_at_ketu_witness :
  kp_calc.kp_star_sub_sub 13.4 = Ok ("Venus", "Ketu", "Venus")%string /\
  exists idx : Z,
    kp_calc.star_index_of (kp_calc._norm360 13.4) = Ok idx /\
    kp_calc.list_get_int kp_calc.NAKSHATRA_LORDS idx = Ok "Venus"%string /\
    let pos_in_star := kp_calc.pos_in_star_of (kp_calc._norm360 13.4) idx in
    let pos_in_sub := fst (kp_spec.sub_position pos_in_star) in
    let sub_span := snd (kp_spec.sub_position pos_in_star) in
    "Ketu"%string = kp_spec.lord_from_ketu kp_calc.star_size pos_in_star /\
    "Venus"%string = kp_spec.lord_from_ketu sub_span pos_in_sub /\
    ((pos_in_star <=? kp_spec.first_span kp_calc.star_size)%float = true ->
     "Ketu"%string = "Ketu"%string) /\
    ((pos_in_sub <=? kp_spec.first_span sub_span)%float = true ->
     "Venus"%string = "Ketu"%string).
Proof.
  split; [vm_compute; reflexivity|].
  apply (C2_sub_spans_start_at_ketu 13.4 "Venus" "Ketu" "Venus").
  vm_compute; reflexivity.
Defined.

(** ** Position lists: a body that is missing *)

Section LookupFacts.

Import panchangam_calc main.

Lemma find_moon_trop_none planets :
  has_body "moon" planets = false -> find_moon_trop planets = None.
Proof.
  unfold has_body. induction planets as [|p l IH]; simpl; auto.
  destruct (String.eqb (lower (get_name p)) "moon"); simpl; [discriminate|auto].
Qed.

Lemma scan_sun_moon_no_moon planets : forall sun_t,
  has_body "moon" planets = false ->
  snd (scan_sun_moon planets sun_t None) = None.
Proof.
  unfold has_body. induction planets as [|p l IH]; intros sun_t H; simpl; auto.
  simpl in H. destruct (String.eqb (lower (get_name p)) "moon") eqn:E;
    simpl in H; [discriminate|].
  destruct (String.eqb (lower (get_name p)) "sun"); auto.
Qed.

End LookupFacts.

(** C3, as the claim states it, fails: for the position list
    [Sun at 10, Mars at 50], which has no Moon entry, [_sun_moon_sid_at]
    raises nothing and answers with the longitude of the second entry in
    place of the Moon's. *)
Lemma C3_missing_moon_is_replaced_by_second_entry :
  let planets :=
    [ {| planet_name := Some "Sun"%string; planet_lon := Some 10%float |};
      {| planet_name := Some "Mars"%string; planet_lon := Some 50%float |} ] in
  has_body "moon" planets = false /\
  panchangam_calc._sun_moon_sid_at planets 0 = Ok (10%float, 50%float).
Proof. split; vm_compute; reflexivity. Qed.

(** C3, amended: for every position list with no entry named Moon,
    [_ensure_session] fails with the [ValueError] "Moon not found in NASA
    planets list"; [_sun_moon_sid_at] instead takes the longitudes of the
    first two entries of the list as the Sun's and the Moon's, and fails
    (with the lookup error of the missing entry or key) only when the list
    has fewer than two entries or one of the two has no longitude. *)
Theorem C3_missing_moon :
  forall (planets : list Planet) (ayan : float),
    has_body "moon" planets = false ->
    main._ensure_session planets ayan
      = Raise (ValueError "Moon not found in NASA planets list") /\
    panchangam_calc._sun_moon_sid_at planets ayan
      = (p0 <- list_get planets 0 ;;
         sun_t <- item_lon p0 ;;
         p1 <- list_get planets 1 ;;
         moon_t <- item_lon p1 ;;
         Ok (panchangam_calc.wrap360 (sun_t - ayan)%float,
             panchangam_calc.wrap360 (moon_t - ayan)%float)).
Proof.
  intros planets ayan Hno. split.
  - unfold main._ensure_session. rewrite (find_moon_trop_none _ Hno).
    reflexivity.
  - unfold panchangam_calc._sun_moon_sid_at.
    pose proof (scan_sun_moon_no_moon planets None Hno) as Hm.
    destruct (panchangam_calc.scan_sun_moon planets None None) as [s m].
    simpl in Hm. subst m.
    destruct s; destruct (list_get planets 0) as [p0|]; simpl; auto;
      destruct (item_lon p0); simpl; auto;
      destruct (list_get planets 1) as [p1|]; simpl; auto;
      destruct (item_lon p1); simpl; auto.
Qed.

Lemma C3_missing_moon_witness :
  let planets :=
    [ {| planet_name := Some "Sun"%string; planet_lon := Some 10%float |} ] in
  has_body "moon" planets = false /\
  main._ensure_session planets 24
    = Raise (ValueError "Moon not found in NASA planets list") /\
  panchangam_calc._sun_moon_sid_at planets 24
    = Raise (IndexError "list index out of range").
Proof.
  split; [reflexivity|].
  exact (C3_missing_moon
           [ {| planet_name := Some "Sun"%string;
                planet_lon := Some 10%float |} ] 24%float eq_refl).
Defined.

(** ** Angle normalization *)

(** C5 fails on the code: for the double nearest to -1e-20 each of the three
    normalization functions returns exactly 360, which is outside [0, 360);
    so does [norm360] on the difference of 24 and the next double above it,
    the form in which sidereal longitudes are computed. *)
Theorem C5_wrap_returns_360_for_tiny_negative :
  houses_placidus._wrap360 (-1e-20) = 360%float /\
  kp_calc._norm360 (-1e-20) = 360%float /\
  panchangam_calc.wrap360 (-1e-20) = 360%float /\
  (360 <? 360)%float = false /\
  main.norm360 (24 - 24.000000000000004) = 360%float.
Proof. repeat split; vm_compute; reflexivity. Qed.

(** ** The tithi index *)

(** C7: the tithi index is [floor (d / 12) + 1]; a difference of 11.9
    degrees gives index 1 and a difference of exactly 12.0 degrees gives
    index 2; and at every multiple [12 * k] of the span below 360 the index
    is [k + 1] while at the double just below it the index is still [k]. *)
Theorem C7_tithi_index_floor_rule :
  (forall d : float,
      panchangam_calc.tithi_idx d
      = (n <- math_floor (d / 12)%float ;; Ok (n + 1)%Z)) /\
  panchangam_calc.tithi_idx 11.9 = Ok 1%Z /\
  panchangam_calc.tithi_idx 12.0 = Ok 2%Z /\
  panchangam_calc.tithi_name 11.9 = Ok "Shukla Pratipada"%string /\
  panchangam_calc.tithi_name 12.0 = Ok "Shukla Dwitiya"%string /\
  Forall (fun k : Z =>
            panchangam_calc.tithi_idx (float_of_int (12 * k)) = Ok (k + 1)%Z /\
            panchangam_calc.tithi_idx (next_down (float_of_int (12 * k)))
            = Ok k)
         (map Z.of_nat (seq 1 29)).
Proof.
  split; [reflexivity|].
  repeat (split; [vm_compute; reflexivity|]).
  repeat constructor; vm_compute; reflexivity.
Qed.

(** ** The Moon's nakshatra and the balance of its lord *)

Section MoonFacts.

Import vimshottari_utils.

(** Where the code finds no offset inside the nakshatra, the balance it
    returns is the full number of years of the lord it returns. *)
Lemma moon_info_full_balance_at_zero_offset x lord balance :
  moon_vimshottari_info x = Ok (lord, balance) ->
  py_mod (py_mod x 360) NAKSHATRA_SPAN = 0%float ->
  exists years,
    dict_get lord DASHA_YEARS = Ok years /\ balance = float_of_int years.
Proof.
  unfold moon_vimshottari_info. intros Hrun Hzero.
  inv_bind Hrun. inv_bind Hrun. inv_bind Hrun.
  injection Hrun as <- <-. rewrite Hzero.
  unfold list_get in Ha0.
  destruct (Z.to_nat (a mod 9)) as [|[|[|[|[|[|[|[|[|n]]]]]]]]];
    cbn [nth_error ORDER] in Ha0;
    try (destruct n; discriminate);
    injection Ha0 as <-;
    cbv in Ha1; injection Ha1 as <-;
    eexists; (split; [reflexivity | vm_compute; reflexivity]).
Qed.

End MoonFacts.


(** ** Floating-point values *)

Section FloatFacts.

Import Py Flt.
Open Scope Z_scope.

Lemma digits2_pos_size m : digits2_pos m = Pos.size m.
Proof. induction m; cbn [digits2_pos Pos.size]; congruence. Qed.

Lemma digits2_pos_log2 m : Zpos (digits2_pos m) = Z.log2 (Zpos m) + 1.
Proof.
  rewrite digits2_pos_size.
  destruct m; cbn [Pos.size Z.log2]; rewrite ?Pos2Z.inj_succ; lia.
Qed.

Lemma digits2_pos_bounds m :
  2 ^ (Zpos (digits2_pos m) - 1) <= Zpos m < 2 ^ Zpos (digits2_pos m).
Proof.
  rewrite digits2_pos_log2.
  replace (Z.log2 (Zpos m) + 1 - 1) with (Z.log2 (Zpos m)) by lia.
  replace (Z.log2 (Zpos m) + 1) with (Z.succ (Z.log2 (Zpos m))) by lia.
  apply Z.log2_spec. lia.
Qed.





Lemma fexp_eq e : fexp prec emax e = Z.max (e - 53) (-1074).
Proof. reflexivity. Qed.

(** ** Shifting right *)








Lemma valid_finite_inv s m e :
  valid_binary (S754_finite s m e) = true ->
  -1074 <= e <= 971 /\ Zpos m < 2 ^ 53 /\ (e = -1074 \/ 2 ^ 52 <= Zpos m).
Proof.
  unfold SpecFloat.valid_binary, bounded, canonical_mantissa.
  rewrite andb_true_iff, Z.eqb_eq, Z.leb_le, fexp_eq.
  change (emax - prec) with 971.
  intros [Hc He].
  destruct (digits2_pos_bounds m) as [Hlo Hhi].
  set (d := Zpos (digits2_pos m)) in *.
  assert (Hd : 0 < d) by (unfold d; lia).
  split; [lia|]. split.
  - eapply Z.lt_le_trans; [exact Hhi|]. apply Z.pow_le_mono_r; lia.
  - destruct (Z.eq_dec e (-1074)) as [|Hne]; [left; assumption|right].
    assert (d = 53) by lia.
    replace 52 with (d - 1) by lia. exact Hlo.
Qed.


Lemma pow2_pos k : 0 <= k -> 0 < 2 ^ k.
Proof. intro; apply Z.pow_pos_nonneg; lia. Qed.



Lemma valid_sign s s' m e :
  valid_binary (S754_finite s m e) = valid_binary (S754_finite s' m e).
Proof. reflexivity. Qed.


Lemma scaled_pos_finite m e :
  -1074 <= e -> 0 < Zpos m * 2 ^ (e + 1074).
Proof. intro H. assert (Ha := pow2_pos (e + 1074) ltac:(lia)). nia. Qed.
















(** ** Values and validity *)

Lemma value_finite_inv x s m e :
  Prim2SF x = S754_finite s m e ->
  -1074 <= e <= 971 /\ Zpos m < 2 ^ 53 /\ (e = -1074 \/ 2 ^ 52 <= Zpos m).
Proof.
  intro H. apply (valid_finite_inv s). rewrite <- H. apply Prim2SF_valid.
Qed.



Lemma cond_Zopp_negb s v : cond_Zopp (negb s) v = - cond_Zopp s v.
Proof. destruct s; unfold cond_Zopp; cbn [negb]; lia. Qed.


Lemma value_abs x : value (abs x) = option_map Z.abs (value x).
Proof.
  unfold value. rewrite abs_spec.
  destruct (Prim2SF x) as [s|s| |s m e] eqn:Ex; try reflexivity.
  destruct (value_finite_inv x s m e Ex) as (He & _).
  assert (H := scaled_pos_finite m e (proj1 He)).
  unfold SFabs, scaled, option_map. f_equal.
  destruct s; unfold cond_Zopp; lia.
Qed.

Lemma value_opp x : value (- x)%float = option_map Z.opp (value x).
Proof.
  unfold value. rewrite opp_spec.
  destruct (Prim2SF x) as [s|s| |s m e]; try reflexivity.
  unfold SFopp, scaled, option_map. rewrite cond_Zopp_negb. reflexivity.
Qed.



















(** ** Constants *)







Section CuspFacts.

Context {L : Libm}.
Import houses_placidus.





End CuspFacts.













Lemma abs_bounded x k : bounded_by k x -> bounded_by k (abs x).
Proof.
  intros (v & Hv & Hb). exists (Z.abs v). rewrite value_abs, Hv.
  split; [reflexivity | lia].
Qed.


(** ** Comparisons with a bound *)








(** ** NaN *)







(** ** The wrappers of the math module *)




(** ** Constants of the cusp code *)







Lemma zero_bounded k : -1074 <= k -> bounded_by k 0%float.
Proof.
  intro H. exists 0. split; [reflexivity|]. cbn [Z.abs].
  apply Z.pow_nonneg. lia.
Qed.












Section SolverFacts.

Context {L : Libm}.
Hypothesis HL : LibmInRange L.
Import houses_placidus.
Local Open Scope Z_scope.









Section Residual.

Variables theta eps phi frac : float.
Hypothesis Htheta : bounded_by 997 theta.
Hypothesis Heps : is_finite eps = true.
Hypothesis Hphi : is_finite phi = true.
Hypothesis Hfrac : bounded_by 997 frac.





End Residual.

End SolverFacts.

Section SolverTotal.

Context {L : Libm}.
Import houses_placidus.
Local Open Scope Z_scope.






End SolverTotal.

Lemma libm_at_zero_in_range : LibmInRange libm_at_zero.
Proof. constructor; intros; reflexivity. Qed.


End FloatFacts.
